(** * COVID-19 dashboard (app-20241118-a.py / app-20241118-b.py)

    A shallow embedding of the data pipeline of the two Streamlit scripts:
    initial filtering, column projection, the two [groupby] aggregations,
    the left merge with the country polygons, [fillna] and the colour
    scale.  A DataFrame is a list of row records in row order; a float64
    cell is an [option Z] ([None] is NaN); a Python exception is the
    [Error] branch of [resultado].

    Modelling assumptions, stated once:
    - case counts are integral, so a float64 sum of them is exact (below
      2^53) and [Z] arithmetic describes it;
    - [iso_code], [date] and [ADM0_ISO] hold strings in every row (the
      loaders are outside the pipeline);
    - Python compares [str] by code point; on UTF-8 bytes this is the
      byte-wise order of [String.compare]. *)

From Stdlib Require Import List Bool ZArith QArith Lia Ascii String.
From Stdlib Require Import Permutation Sorted Lqa.
Import ListNotations.

Open Scope string_scope.
Open Scope Z_scope.

(** ** Exceptions *)

Inductive error : Type :=
| ValueError (msg : string)
| ZeroDivisionError
| IndexError.

Inductive resultado (A : Type) : Type :=
| Ok (a : A)
| Error (e : error).
Arguments Ok {A} a.
Arguments Error {A} e.

Definition bind {A B : Type} (m : resultado A) (k : A -> resultado B)
  : resultado B :=
  match m with
  | Ok a => k a
  | Error e => Error e
  end.

Notation "x <- m ;; k" := (bind m (fun x => k))
  (at level 61, m at next level, right associativity).

Fixpoint map_m {A B : Type} (f : A -> resultado B) (l : list A)
  : resultado (list B) :=
  match l with
  | [] => Ok []
  | a :: l' => b <- f a ;; bs <- map_m f l' ;; Ok (b :: bs)
  end.

(** ** Data model *)

(** A float64 cell: [None] is NaN. *)
Definition celda : Type := option Z.

(** The columns of owid-covid-data that the scripts read. *)
Record FilaCovid : Type := {
  iso_code : string;
  location : string;
  date : string;
  total_cases : celda;
  total_deaths : celda
}.

(** [datetime.date]: compared field by field, year first. *)
Record Fecha : Type := { anio : Z; mes : Z; dia : Z }.

(** A row of [datos] after the projection and renaming (lines 85-98 of
    variant b): 'Código ISO', 'País', 'Fecha', 'Casos totales',
    'Muertes totales'. *)
Record FilaTabla : Type := {
  codigo_iso : string;
  pais : string;
  fecha : Fecha;
  casos_totales : celda;
  muertes_totales : celda
}.

(** A row of the GeoDataFrame [paises]; the geometry is carried along and
    never inspected. *)
Record Poligono : Type := {
  ADM0_ISO : string;
  geometry : string
}.

(** ** pandas primitives *)

Module Pandas.

(** Boolean-mask indexing [df[mask]]: the rows whose mask entry is True,
    in row order.  The mask is always computed from the frame it indexes,
    so both have the same length. *)
Fixpoint seleccionar {A : Type} (mascara : list bool) (filas : list A)
  : list A :=
  match mascara, filas with
  | b :: m, f :: fs => if b then f :: seleccionar m fs else seleccionar m fs
  | _, _ => []
  end.

(** [Series.sum()] with the default [skipna=True]: NaN cells are skipped
    and the sum of no cell is 0, never NaN. *)
Fixpoint suma_presentes (columna : list celda) : Z :=
  match columna with
  | [] => 0
  | None :: c => suma_presentes c
  | Some v :: c => v + suma_presentes c
  end.

Definition sum (columna : list celda) : celda :=
  Some (suma_presentes columna).

(** [Series.max()] with the default [skipna=True]: NaN cells are skipped
    and the maximum of no cell is NaN. *)
Fixpoint max (columna : list celda) : celda :=
  match columna with
  | [] => None
  | None :: c => max c
  | Some v :: c =>
      match max c with
      | Some m => Some (Z.max v m)
      | None => Some v
      end
  end.

(** [Series.min()], likewise. *)
Fixpoint min (columna : list celda) : celda :=
  match columna with
  | [] => None
  | None :: c => min c
  | Some v :: c =>
      match min c with
      | Some m => Some (Z.min v m)
      | None => Some v
      end
  end.

(** [Series.fillna(0)]. *)
Definition fillna (valor : Z) (c : celda) : Z :=
  match c with
  | Some v => v
  | None => valor
  end.

Section GroupBy.
Variables (Fila K : Type).
Variable K_dec : forall a b : K, {a = b} + {a <> b}.
(** The order of the keys. *)
Variable leb : K -> K -> bool.
Variable clave : Fila -> K.
Variable valor : Fila -> celda.

Fixpoint insertar (k : K) (l : list K) : list K :=
  match l with
  | [] => [k]
  | x :: l' => if leb k x then k :: l else x :: insertar k l'
  end.

(** The sort of the group keys ([sort=True] is the default). *)
Definition ordenar (l : list K) : list K := fold_right insertar [] l.

(** The distinct keys, sorted. *)
Definition claves (filas : list Fila) : list K :=
  ordenar (nodup K_dec (List.map clave filas)).

(** The rows of one group, in row order. *)
Definition grupo (k : K) (filas : list Fila) : list Fila :=
  List.filter (fun f => if K_dec (clave f) k then true else false) filas.

(** [df.groupby(key)[col].agg().reset_index()]: one row per distinct
    key, holding the reduction of that group's column. *)
Definition groupby (agg : list celda -> celda) (filas : list Fila)
  : list (K * celda) :=
  List.map (fun k => (k, agg (List.map valor (grupo k filas))))
           (claves filas).
End GroupBy.
Arguments insertar {K} leb k l.
Arguments ordenar {K} leb l.
Arguments claves {Fila K} K_dec leb clave filas.
Arguments grupo {Fila K} K_dec clave k filas.
Arguments groupby {Fila K} K_dec leb clave valor agg filas.

(** A row of [left.merge(right, how='left', ...)]: the left row and the
    right row's columns, NaN where no right row matched. *)
Record FilaUnida (L : Type) : Type := {
  izquierda : L;
  codigo_derecha : option string;
  casos_derecha : celda
}.
Arguments izquierda {L} f.
Arguments codigo_derecha {L} f.
Arguments casos_derecha {L} f.

(** [left.merge(right, how='left', left_on=..., right_on=...)]: the left
    rows in order; each is paired with every right row of equal key, in
    right order, or with NaN when there is none. *)
Definition merge_left {L : Type} (left_on : L -> string) (left : list L)
           (right : list (string * celda)) : list (FilaUnida L) :=
  flat_map
    (fun l =>
       match List.filter (fun r => String.eqb (fst r) (left_on l)) right with
       | [] => [ {| izquierda := l; codigo_derecha := None;
                    casos_derecha := None |} ]
       | coincidencias =>
           List.map (fun r => {| izquierda := l;
                                 codigo_derecha := Some (fst r);
                                 casos_derecha := snd r |})
                    coincidencias
       end)
    left.

End Pandas.

(** ** Dates *)

(** [date.__le__] and friends: lexicographic on (year, month, day). *)
Definition fecha_compare (a b : Fecha) : comparison :=
  match anio a ?= anio b with
  | Eq => match mes a ?= mes b with
          | Eq => dia a ?= dia b
          | c => c
          end
  | c => c
  end.

Definition fecha_leb (a b : Fecha) : bool :=
  match fecha_compare a b with
  | Gt => false
  | _ => true
  end.

Definition Fecha_dec (a b : Fecha) : {a = b} + {a <> b}.
Proof. decide equality; apply Z.eq_dec. Defined.

Definition bisiesto (y : Z) : bool :=
  (y mod 4 =? 0) && (negb (y mod 100 =? 0) || (y mod 400 =? 0)).

Definition dias_del_mes (y m : Z) : Z :=
  if m =? 2 then (if bisiesto y then 29 else 28)
  else if (m =? 4) || (m =? 6) || (m =? 9) || (m =? 11) then 30
  else 31.

Definition fecha_valida (y m d : Z) : bool :=
  (1 <=? y) && (1 <=? m) && (m <=? 12) && (1 <=? d)
  && (d <=? dias_del_mes y m).

(** The value of a decimal digit character. *)
Definition digito (c : ascii) : option Z :=
  let n := N_of_ascii c in
  if ((48 <=? n) && (n <=? 57))%N then Some (Z.of_N n - 48) else None.

(** Reads the longest run of digits at the head of [s]: its digits' values
    and the rest of the string. *)
Fixpoint leer_digitos (s : string) : list Z * string :=
  match s with
  | EmptyString => ([], EmptyString)
  | String c s' =>
      match digito c with
      | Some v => let (ds, resto) := leer_digitos s' in (v :: ds, resto)
      | None => ([], s)
      end
  end.

Definition numero (ds : list Z) : Z :=
  fold_left (fun acc d => 10 * acc + d) ds 0.

(** The fragment of [pd.to_datetime(...).dt.date] the pipeline relies on:
    a year of four digits, a month and a day of one or two digits,
    separated by '-', naming a day of the calendar.  Any other string is
    outside the modelled fragment and is treated as unparseable. *)
Definition to_datetime (s : string) : option Fecha :=
  let (ys, r1) := leer_digitos s in
  match r1 with
  | String "-" r1' =>
      let (ms, r2) := leer_digitos r1' in
      match r2 with
      | String "-" r2' =>
          let (ds, r3) := leer_digitos r2' in
          match r3 with
          | EmptyString =>
              let y := numero ys in
              let m := numero ms in
              let d := numero ds in
              if (List.length ys =? 4)%nat
                 && (1 <=? List.length ms)%nat && (List.length ms <=? 2)%nat
                 && (1 <=? List.length ds)%nat && (List.length ds <=? 2)%nat
                 && fecha_valida y m d
              then Some {| anio := y; mes := m; dia := d |}
              else None
          | _ => None
          end
      | _ => None
      end
  | _ => None
  end.

Definition es_digito (c : ascii) : bool :=
  match digito c with Some _ => true | None => false end.

(** A zero-padded ISO-8601 calendar date, YYYY-MM-DD: ten characters,
    digits around two '-'. *)
Definition forma_iso_8601 (s : string) : bool :=
  match list_ascii_of_string s with
  | [y1; y2; y3; y4; g1; m1; m2; g2; d1; d2] =>
      es_digito y1 && es_digito y2 && es_digito y3 && es_digito y4
      && Ascii.eqb g1 "-" && es_digito m1 && es_digito m2
      && Ascii.eqb g2 "-" && es_digito d1 && es_digito d2
  | _ => false
  end.

(** ** branca.colormap *)

Module Branca.

(** An RGBA colour with float components in [0, 1]. *)
Definition color : Type := (Q * Q * Q * Q)%type.

Record LinearColormap : Type := {
  colors : list color;
  index : list Q;
  vmin : Q;
  vmax : Q;
  caption : string
}.

(** Python's [a / b]. *)
Definition dividir (a b : Q) : resultado Q :=
  if Qeq_bool b 0 then Error ZeroDivisionError else Ok (a / b)%Q.

(** Python's [l[i]], negative indices counting from the end. *)
Definition elemento {A : Type} (l : list A) (i : Z) : resultado A :=
  let n := Z.of_nat (List.length l) in
  let j := if i <? 0 then i + n else i in
  if (j <? 0) || (n <=? j) then Error IndexError
  else match nth_error l (Z.to_nat j) with
       | Some a => Ok a
       | None => Error IndexError
       end.

(** [LinearColormap.scale(vmin, vmax)]: the same colours, the index
    stretched onto [vmin, vmax]. *)
Definition scale (self : LinearColormap) (vmin' vmax' : Q)
  : resultado LinearColormap :=
  indice <- map_m (fun x =>
                     q <- dividir ((vmax' - vmin') * (x - vmin self) * 1)%Q
                                  (vmax self - vmin self)%Q ;;
                     Ok (vmin' + q)%Q)
                  (index self) ;;
  Ok {| colors := colors self; index := indice;
        vmin := vmin'; vmax := vmax'; caption := caption self |}.

Definition mezclar (p : Q) (c0 c1 : color) : color :=
  let '(r0, g0, b0, a0) := c0 in
  let '(r1, g1, b1, a1) := c1 in
  ((1 - p) * r0 + p * r1, (1 - p) * g0 + p * g1,
   (1 - p) * b0 + p * b1, (1 - p) * a0 + p * a1)%Q.

(** [LinearColormap.rgba_floats_tuple(x)]: the first colour at or below
    the first index, the last colour at or above the last index, and a
    linear blend of the two neighbouring stops in between. *)
Definition rgba_floats_tuple (self : LinearColormap) (x : Q)
  : resultado color :=
  primero <- elemento (index self) 0 ;;
  if Qle_bool x primero then elemento (colors self) 0
  else
    ultimo <- elemento (index self) (-1) ;;
    if Qle_bool ultimo x then elemento (colors self) (-1)
    else
      let i := Z.of_nat (List.length
                 (List.filter (fun u => negb (Qle_bool x u)) (index self))) in
      u0 <- elemento (index self) (i - 1) ;;
      u1 <- elemento (index self) i ;;
      p <- dividir ((x - u0) * 1)%Q (u1 - u0)%Q ;;
      c0 <- elemento (colors self) (i - 1) ;;
      c1 <- elemento (colors self) i ;;
      Ok (mezclar p c0 c1).

Definition hex (r g b : Z) : color :=
  (inject_Z r / 255, inject_Z g / 255, inject_Z b / 255, 1)%Q.

(** [linear.YlOrRd_09]: the nine-class ColorBrewer palette on [0, 1],
    stops evenly spaced. *)
Definition YlOrRd_09 : LinearColormap :=
  {| colors := [hex 255 255 204; hex 255 237 160; hex 254 217 118;
                hex 254 178 76; hex 253 141 60; hex 252 78 42;
                hex 227 26 28; hex 189 0 38; hex 128 0 38];
     index := List.map (fun i => (inject_Z i / 8)%Q) [0; 1; 2; 3; 4; 5; 6; 7; 8];
     vmin := 0%Q;
     vmax := 1%Q;
     caption := "" |}.

End Branca.

(** ** The application *)

(** Line 26 of variant b ([FECHA_MAXIMA] in variant a). *)
Definition FECHA_MAXIMA_DATOS_COVID : string := "2024-08-04".

(** [datos[datos['date'] <= fecha_maxima]]: a comparison of strings. *)
Definition filtrar_fecha (fecha_maxima : string) (datos : list FilaCovid)
  : list FilaCovid :=
  Pandas.seleccionar
    (List.map (fun r => String.leb (date r) fecha_maxima) datos) datos.

(** [datos[~datos['iso_code'].str.startswith(prefijo)]]. *)
Definition excluir_prefijo (prefijo : string) (datos : list FilaCovid)
  : list FilaCovid :=
  Pandas.seleccionar
    (List.map (fun r => negb (String.prefix prefijo (iso_code r))) datos)
    datos.

(** The initial filtering of variant a (line 56): the date bound only. *)
Definition filtrado_inicial_a (datos : list FilaCovid) : list FilaCovid :=
  filtrar_fecha FECHA_MAXIMA_DATOS_COVID datos.

(** The initial filtering of variant b (lines 68 and 72): the date bound,
    then the exclusion of the 'OWID' region codes. *)
Definition filtrado_inicial_b (datos : list FilaCovid) : list FilaCovid :=
  excluir_prefijo "OWID" (filtrar_fecha FECHA_MAXIMA_DATOS_COVID datos).


(** Lines 78-98: the five columns, renamed, 'Fecha' parsed to a date.  A
    string that does not parse raises. *)
Definition proyectar_fila (r : FilaCovid) : resultado FilaTabla :=
  match to_datetime (date r) with
  | Some f => Ok {| codigo_iso := iso_code r; pais := location r;
                    fecha := f; casos_totales := total_cases r;
                    muertes_totales := total_deaths r |}
  | None => Error (ValueError (date r))
  end.

Definition proyectar (datos : list FilaCovid) : resultado (list FilaTabla) :=
  map_m proyectar_fila datos.

(** Lines 108-113. *)
Definition casos_totales_por_fecha (datos : list FilaTabla)
  : list (Fecha * celda) :=
  Pandas.groupby Fecha_dec fecha_leb fecha casos_totales
                 Pandas.sum datos.

(** Lines 138-143. *)
Definition casos_totales_por_pais (datos : list FilaTabla)
  : list (string * celda) :=
  Pandas.groupby string_dec String.leb codigo_iso casos_totales
                 Pandas.max datos.

(** A row of [paises] after the merge and [fillna(0)] (lines 146-154). *)
Record FilaMapa : Type := {
  poligono : Poligono;
  codigo : option string;
  casos : Z
}.

Definition GeoJoiner (paises : list Poligono)
           (por_pais : list (string * celda)) : list FilaMapa :=
  List.map (fun u => {| poligono := Pandas.izquierda u;
                        codigo := Pandas.codigo_derecha u;
                        casos := Pandas.fillna 0 (Pandas.casos_derecha u) |})
           (Pandas.merge_left ADM0_ISO paises por_pais).

(** A feature of the GeoJson layer with the fill colour its style function
    gives it (lines 161-168).  The hexadecimal string folium receives is a
    function of this RGBA tuple. *)
Record Entidad : Type := {
  fila : FilaMapa;
  fillColor : Branca.color
}.

Definition paleta_colores (paises : list FilaMapa)
  : resultado (option Branca.LinearColormap) :=
  let columna := List.map (fun f => Some (casos f)) paises in
  match Pandas.min columna, Pandas.max columna with
  | Some lo, Some hi =>
      p <- Branca.scale Branca.YlOrRd_09 (inject_Z lo) (inject_Z hi) ;;
      Ok (Some p)
  | _, _ => Ok None
  end.

Definition colorear (paises : list FilaMapa) : resultado (list Entidad) :=
  paleta <- paleta_colores paises ;;
  match paleta with
  | Some p =>
      map_m (fun f =>
               c <- Branca.rgba_floats_tuple p (inject_Z (casos f)) ;;
               Ok {| fila := f; fillColor := c |})
            paises
  | None => Ok []
  end.

(** The three artefacts handed to the renderers. *)
Record Salida : Type := {
  tabla : list FilaTabla;
  grafico : list (Fecha * celda);
  mapa : list Entidad
}.

(** Everything after the initial filtering; the same text in both
    variants. *)
Definition presentar (datos : list FilaCovid) (paises : list Poligono)
  : resultado Salida :=
  datos <- proyectar datos ;;
  let por_fecha := casos_totales_por_fecha datos in
  let por_pais := casos_totales_por_pais datos in
  entidades <- colorear (GeoJoiner paises por_pais) ;;
  Ok {| tabla := datos; grafico := por_fecha; mapa := entidades |}.

Definition app_a (datos : list FilaCovid) (paises : list Poligono)
  : resultado Salida :=
  presentar (filtrado_inicial_a datos) paises.

Definition app_b (datos : list FilaCovid) (paises : list Poligono)
  : resultado Salida :=
  presentar (filtrado_inicial_b datos) paises.

(** ** Specification vocabulary *)



(** The numbers of a column, NaN dropped. *)
Definition valores_presentes (columna : list celda) : list Z :=
  flat_map (fun c => match c with Some v => [v] | None => [] end) columna.

Definition total (l : list Z) : Z := fold_right Z.add 0 l.

Definition es_maximo_de (m : Z) (l : list Z) : Prop :=
  In m l /\ forall v, In v l -> v <= m.

(** What a reduction by maximum may answer for a column: the greatest of
    its numbers, or NaN when it holds none. *)
Definition maximo_de_columna (m : celda) (columna : list celda) : Prop :=
  match m with
  | Some v => es_maximo_de v (valores_presentes columna)
  | None => valores_presentes columna = []
  end.

(** The 'Casos totales' column of the records of one country code. *)
Definition casos_del_pais (c : string) (datos : list FilaTabla)
  : list celda :=
  List.map casos_totales
           (List.filter (fun r => String.eqb (codigo_iso r) c) datos).

(** The 'Casos totales' column of the records of one date. *)
Definition casos_de_la_fecha (d : Fecha) (datos : list FilaTabla)
  : list celda :=
  List.map casos_totales
           (List.filter (fun r => if Fecha_dec (fecha r) d then true else false)
                        datos).

(** The aggregate rows whose code is the polygon's. *)
Definition coincidencias (p : Poligono) (por_pais : list (string * celda))
  : list (string * celda) :=
  List.filter (fun r => String.eqb (fst r) (ADM0_ISO p)) por_pais.

(** The row of a polygon without aggregate, and with the aggregate row
    [r]. *)
Definition sin_datos (p : Poligono) : FilaMapa :=
  {| poligono := p; codigo := None; casos := 0 |}.

Definition con_datos (p : Poligono) (r : string * celda) : FilaMapa :=
  {| poligono := p; codigo := Some (fst r);
     casos := Pandas.fillna 0 (snd r) |}.

(** Where [scale(lo, hi)] puts the stop [x] of a palette on [0, 1]. *)
Definition estirar (lo hi x : Q) : Q :=
  (lo + ((hi - lo) * (x - 0) * 1) / (1 - 0))%Q.

(** The maximum date as a calendar date. *)
Definition fecha_maxima_datos_covid : Fecha :=
  {| anio := 2024; mes := 8; dia := 4 |}.

(** What the projection does to one record. *)
Definition proyectada (r : FilaCovid) (t : FilaTabla) : Prop :=
  to_datetime (date r) = Some (fecha t)
  /\ codigo_iso t = iso_code r /\ pais t = location r
  /\ casos_totales t = total_cases r /\ muertes_totales t = total_deaths r.

(** Strictly ascending, for the order test [leb]. *)
Definition creciente {K : Type} (leb : K -> K -> bool) (l : list K) : Prop :=
  StronglySorted (fun a b => leb a b = true /\ a <> b) l.

(** The palette after [scale(lo, hi)]. *)
Definition escalada (lo hi : Q) : Branca.LinearColormap :=
  {| Branca.colors := Branca.colors Branca.YlOrRd_09;
     Branca.index := List.map (estirar lo hi) (Branca.index Branca.YlOrRd_09);
     Branca.vmin := lo; Branca.vmax := hi;
     Branca.caption := Branca.caption Branca.YlOrRd_09 |}.

(** The row the map holds for polygon [p], given the projected table: the
    country's greatest count (0 when it has none) if some record carries
    the polygon's code, and the zero row otherwise. *)
Definition fila_del_mapa (datos : list FilaTabla) (p : Poligono) : FilaMapa :=
  if in_dec string_dec (ADM0_ISO p) (List.map codigo_iso datos)
  then con_datos p (ADM0_ISO p,
                    Pandas.max (casos_del_pais (ADM0_ISO p) datos))
  else sin_datos p.


(** ** Example data *)

Definition registro (c d : string) (n : celda) : FilaCovid :=
  {| iso_code := c; location := c; date := d;
     total_cases := n; total_deaths := None |}.

Definition territorio (c : string) : Poligono :=
  {| ADM0_ISO := c; geometry := "POLYGON" |}.

(** The scenario of the specification, with a region row, a row past the
    maximum date and a row without a count added. *)
Definition ejemplo_datos : list FilaCovid :=
  [registro "USA" "2024-01-01" (Some 100);
   registro "USA" "2024-01-02" (Some 150);
   registro "CAN" "2024-01-01" (Some 50);
   registro "OWID_WRL" "2024-01-01" (Some 1000);
   registro "CAN" "2024-09-01" (Some 70);
   registro "CAN" "2024-01-02" None].

Definition ejemplo_sin_regiones : list FilaCovid :=
  [registro "USA" "2024-01-01" (Some 100);
   registro "USA" "2024-01-02" (Some 150);
   registro "CAN" "2024-01-01" (Some 50)].

Definition ejemplo_paises : list Poligono :=
  [territorio "USA"; territorio "CAN"; territorio "MEX"].

Definition fila_tabla (c : string) (y m d : Z) (n : celda) : FilaTabla :=
  {| codigo_iso := c; pais := c;
     fecha := {| anio := y; mes := m; dia := d |};
     casos_totales := n; muertes_totales := None |}.

Definition ejemplo_tabla : list FilaTabla :=
  [fila_tabla "USA" 2024 1 1 (Some 100);
   fila_tabla "USA" 2024 1 2 (Some 150);
   fila_tabla "CAN" 2024 1 1 (Some 50);
   fila_tabla "CAN" 2024 1 2 None].

(** Aggregate rows that repeat a code; no [groupby] produces them. *)
Definition ejemplo_repetido : list (string * celda) :=
  [("USA", Some 100); ("USA", Some 150)].

(** The joined table of the example and what the scripts compute from
    the example, evaluated. *)
Definition ejemplo_filas : list FilaMapa :=
  GeoJoiner ejemplo_paises (casos_totales_por_pais ejemplo_tabla).

Definition ejemplo_entidades : list Entidad :=
  Eval vm_compute in
    match colorear ejemplo_filas with
    | Ok es => es
    | Error _ => []
    end.

Definition salida_vacia : Salida :=
  {| tabla := []; grafico := []; mapa := [] |}.


Definition ejemplo_salida_b : Salida :=
  Eval vm_compute in
    match app_b ejemplo_datos ejemplo_paises with
    | Ok s => s
    | Error _ => salida_vacia
    end.

(** * Properties *)

(** ** Mask indexing and the monad *)

Lemma seleccionar_map {A : Type} (p : A -> bool) (l : list A) :
  Pandas.seleccionar (List.map p l) l = List.filter p l.
Proof.
  induction l as [|a l IH]; simpl; [reflexivity|].
  rewrite IH. reflexivity.
Qed.


Lemma filter_todos {A : Type} (p : A -> bool) (l : list A) :
  (forall a, In a l -> p a = true) -> List.filter p l = l.
Proof.
  induction l as [|a l IH]; simpl; intros H; [reflexivity|].
  rewrite (H a (or_introl eq_refl)), IH; auto.
Qed.

Lemma map_m_ok {A B : Type} (f : A -> resultado B) (g : A -> B) (l : list A) :
  (forall a, In a l -> f a = Ok (g a)) -> map_m f l = Ok (List.map g l).
Proof.
  induction l as [|a l IH]; simpl; intros H; [reflexivity|].
  rewrite (H a (or_introl eq_refl)); simpl.
  rewrite IH by auto. reflexivity.
Qed.



(** ** Grouping *)

Section PropiedadesGroupBy.
Context {Fila K : Type}.
Variable K_dec : forall a b : K, {a = b} + {a <> b}.
Variable leb : K -> K -> bool.
Variable clave : Fila -> K.
Variable valor : Fila -> celda.

Let claves := Pandas.claves K_dec leb clave.
Let grupo := Pandas.grupo K_dec clave.
Let groupby := Pandas.groupby K_dec leb clave valor.
Let es (c k : K) : bool := if K_dec k c then true else false.

Lemma insertar_perm (k : K) (l : list K) :
  Permutation (k :: l) (Pandas.insertar leb k l).
Proof.
  induction l as [|x l IH]; simpl; [reflexivity|].
  destruct (leb k x); [reflexivity|].
  rewrite perm_swap. now apply perm_skip.
Qed.

Lemma ordenar_perm (l : list K) : Permutation l (Pandas.ordenar leb l).
Proof.
  induction l as [|k l IH]; simpl; [reflexivity|].
  rewrite <- insertar_perm. now apply perm_skip.
Qed.

Lemma claves_NoDup (filas : list Fila) : NoDup (claves filas).
Proof.
  unfold claves, Pandas.claves.
  eapply Permutation_NoDup; [apply ordenar_perm|apply NoDup_nodup].
Qed.

Lemma claves_In (filas : list Fila) (k : K) :
  In k (claves filas) <-> In k (List.map clave filas).
Proof.
  unfold claves, Pandas.claves. split; intros H.
  - apply (nodup_In K_dec).
    eapply Permutation_in; [apply Permutation_sym, ordenar_perm|exact H].
  - eapply Permutation_in; [apply ordenar_perm|].
    now apply nodup_In.
Qed.

Lemma groupby_claves (agg : list celda -> celda) (filas : list Fila) :
  List.map fst (groupby agg filas) = claves filas.
Proof.
  unfold groupby, Pandas.groupby. rewrite map_map. simpl. apply map_id.
Qed.

Lemma groupby_In (agg : list celda -> celda) (filas : list Fila)
      (k : K) (v : celda) :
  In (k, v) (groupby agg filas) ->
  In k (List.map clave filas) /\ v = agg (List.map valor (grupo k filas)).
Proof.
  unfold groupby, Pandas.groupby. rewrite in_map_iff.
  intros (k' & [= -> <-] & Hin). split; [|reflexivity].
  now apply claves_In.
Qed.

Lemma filter_sin_clave (c : K) (l : list K) :
  ~ In c l -> List.filter (es c) l = [].
Proof.
  induction l as [|k l IH]; simpl; intros Hn; [reflexivity|].
  unfold es at 1. destruct (K_dec k c) as [->|_].
  - exfalso. apply Hn. now left.
  - apply IH. intros H. apply Hn. now right.
Qed.

Lemma filter_clave_unica (c : K) (l : list K) :
  NoDup l -> In c l -> List.filter (es c) l = [c].
Proof.
  induction 1 as [|k l Hk Hnd IH]; simpl; [intros []|].
  intros Hin. unfold es at 1. destruct (K_dec k c) as [->|Hne].
  - now rewrite filter_sin_clave.
  - destruct Hin as [->|Hin]; [contradiction|]. now apply IH.
Qed.

Lemma groupby_fila_unica (agg : list celda -> celda) (filas : list Fila)
      (c : K) :
  In c (List.map clave filas) ->
  List.filter (fun fila => es c (fst fila)) (groupby agg filas)
  = [(c, agg (List.map valor (grupo c filas)))].
Proof.
  intros Hin. unfold groupby, Pandas.groupby.
  transitivity
    (List.map (fun k => (k, agg (List.map valor (grupo k filas))))
              (List.filter (es c) (Pandas.claves K_dec leb clave filas))).
  - generalize (Pandas.claves K_dec leb clave filas) as ks.
    induction ks as [|k ks IH]; simpl; [reflexivity|].
    destruct (es c k); simpl; now rewrite IH.
  - rewrite filter_clave_unica; [reflexivity|apply claves_NoDup|].
    now apply claves_In.
Qed.








End PropiedadesGroupBy.

(** ** The two aggregations *)

Lemma suma_presentes_total (columna : list celda) :
  Pandas.suma_presentes columna = total (valores_presentes columna).
Proof.
  induction columna as [|[v|] c IH]; simpl; [reflexivity| |exact IH].
  now rewrite IH.
Qed.

Lemma max_es_maximo (columna : list celda) :
  maximo_de_columna (Pandas.max columna) columna.
Proof.
  induction columna as [|[v|] c IH]; simpl; [reflexivity| |exact IH].
  destruct (Pandas.max c) as [m|]; simpl in *.
  - destruct IH as [Hin Hle]. split.
    + destruct (Z.max_spec v m) as [[_ ->]|[_ ->]]; simpl; auto.
    + intros w [<-|Hw]; [lia|]. specialize (Hle w Hw). lia.
  - rewrite IH. split; [now left|].
    intros w [<-|[]]. lia.
Qed.

Lemma grupo_pais (c : string) (datos : list FilaTabla) :
  List.map casos_totales (Pandas.grupo string_dec codigo_iso c datos)
  = casos_del_pais c datos.
Proof.
  unfold casos_del_pais, Pandas.grupo. f_equal. apply filter_ext.
  intros r. destruct (string_dec (codigo_iso r) c) as [->|Hne].
  - now rewrite String.eqb_refl.
  - symmetry. now apply String.eqb_neq.
Qed.

Lemma casos_totales_por_pais_NoDup (datos : list FilaTabla) :
  NoDup (List.map fst (casos_totales_por_pais datos)).
Proof.
  unfold casos_totales_por_pais.
  rewrite (groupby_claves string_dec String.leb).
  apply claves_NoDup.
Qed.


(** C3. For every country code that appears in the records, the by-country
    table holds exactly one row for that code, and its 'Casos totales' is
    the maximum of that code's 'Casos totales' values. *)
Theorem casos_totales_por_pais_maximo (datos : list FilaTabla) (c : string) :
  In c (List.map codigo_iso datos) ->
  exists m,
    List.filter (fun fila => String.eqb (fst fila) c)
                (casos_totales_por_pais datos) = [(c, m)]
    /\ maximo_de_columna m (casos_del_pais c datos).
Proof.
  intros Hin.
  exists (Pandas.max (casos_del_pais c datos)). split.
  - rewrite <- grupo_pais.
    rewrite <- (groupby_fila_unica string_dec String.leb codigo_iso
                  casos_totales Pandas.max datos c Hin).
    apply filter_ext. intros [k v]. simpl.
    destruct (string_dec k c) as [->|Hne].
    + apply String.eqb_refl.
    + now apply String.eqb_neq.
  - apply max_es_maximo.
Qed.

(** C7. Records whose 'Casos totales' is NaN add nothing to either
    aggregation: each per-date sum is a number, the plain sum of the
    numbers present in that date's records; each per-country maximum is
    the greatest of the numbers present in that country's records, and it
    is NaN only when that country has no number at all, never because a
    NaN stood next to a number. *)
Theorem agregaciones_excluyen_NaN (datos : list FilaTabla) :
  (forall d s, In (d, s) (casos_totales_por_fecha datos) ->
               s = Some (total (valores_presentes
                                  (casos_de_la_fecha d datos))))
  /\ (forall c m, In (c, m) (casos_totales_por_pais datos) ->
                  maximo_de_columna m (casos_del_pais c datos))
  /\ (forall c m r v, In (c, m) (casos_totales_por_pais datos) ->
                      In r datos -> codigo_iso r = c ->
                      casos_totales r = Some v ->
                      exists x, m = Some x /\ v <= x).
Proof.
  assert (Hmax : forall c m, In (c, m) (casos_totales_por_pais datos) ->
                             maximo_de_columna m (casos_del_pais c datos)).
  { intros c m H.
    apply (groupby_In string_dec String.leb) in H.
    destruct H as [_ ->]. rewrite grupo_pais. apply max_es_maximo. }
  split; [|split; [exact Hmax|]].
  - intros d s H.
    apply (groupby_In Fecha_dec fecha_leb) in H.
    destruct H as [_ ->]. unfold Pandas.sum.
    now rewrite suma_presentes_total.
  - intros c m r v Hrow Hr Hc Hv. specialize (Hmax c m Hrow).
    assert (Hin : In v (valores_presentes (casos_del_pais c datos))).
    { unfold valores_presentes, casos_del_pais.
      apply in_flat_map. exists (Some v). split; [|now left].
      rewrite <- Hv. apply in_map. apply filter_In. split; [exact Hr|].
      rewrite Hc. apply String.eqb_refl. }
    destruct m as [x|]; simpl in Hmax.
    + exists x. split; [reflexivity|]. now apply Hmax.
    + rewrite Hmax in Hin. destruct Hin.
Qed.

(** ** The join with the polygons *)

Lemma GeoJoiner_cons (p : Poligono) (paises : list Poligono)
      (por_pais : list (string * celda)) :
  GeoJoiner (p :: paises) por_pais
  = ((match coincidencias p por_pais with
       | [] => [sin_datos p]
       | ms => List.map (con_datos p) ms
       end) ++ GeoJoiner paises por_pais)%list.
Proof.
  unfold GeoJoiner, Pandas.merge_left, coincidencias. simpl.
  rewrite map_app. f_equal.
  destruct (List.filter _ por_pais) as [|r ms]; [reflexivity|].
  simpl. rewrite map_map. reflexivity.
Qed.

Lemma GeoJoiner_app (antes despues : list Poligono)
      (por_pais : list (string * celda)) :
  GeoJoiner (antes ++ despues)%list por_pais
  = (GeoJoiner antes por_pais ++ GeoJoiner despues por_pais)%list.
Proof.
  induction antes as [|p antes IH]; [reflexivity|].
  simpl. rewrite !GeoJoiner_cons, IH. now rewrite app_assoc.
Qed.

Lemma coincidencias_sin_clave (p : Poligono)
      (por_pais : list (string * celda)) :
  ~ In (ADM0_ISO p) (List.map fst por_pais) -> coincidencias p por_pais = [].
Proof.
  unfold coincidencias.
  induction por_pais as [|r pp IH]; simpl; intros Hn; [reflexivity|].
  destruct (String.eqb_spec (fst r) (ADM0_ISO p)) as [e|_].
  - exfalso. apply Hn. now left.
  - apply IH. intros H. apply Hn. now right.
Qed.

Lemma coincidencias_a_lo_sumo_una (p : Poligono)
      (por_pais : list (string * celda)) :
  NoDup (List.map fst por_pais) ->
  coincidencias p por_pais = []
  \/ exists r, coincidencias p por_pais = [r].
Proof.
  induction por_pais as [|r pp IH]; simpl; intros Hnd; [now left|].
  inversion Hnd as [|k ks Hk Hnd' E]; subst.
  unfold coincidencias. simpl.
  destruct (String.eqb_spec (fst r) (ADM0_ISO p)) as [e|_].
  - right. exists r. f_equal. apply coincidencias_sin_clave.
    now rewrite <- e.
  - now apply IH.
Qed.

Lemma coincidencias_In (p : Poligono) (por_pais : list (string * celda))
      (r : string * celda) :
  In r (coincidencias p por_pais) <->
  In r por_pais /\ fst r = ADM0_ISO p.
Proof.
  unfold coincidencias. rewrite filter_In.
  now rewrite String.eqb_eq.
Qed.

Lemma casos_totales_por_pais_sin_ambiguedad (datos : list FilaTabla)
      (p : Poligono) :
  (List.length (coincidencias p (casos_totales_por_pais datos)) <= 1)%nat.
Proof.
  destruct (coincidencias_a_lo_sumo_una p (casos_totales_por_pais datos)
              (casos_totales_por_pais_NoDup datos)) as [->|[r ->]];
    simpl; lia.
Qed.

Lemma GeoJoiner_poligonos (paises : list Poligono)
      (por_pais : list (string * celda)) :
  NoDup (List.map fst por_pais) ->
  List.map poligono (GeoJoiner paises por_pais) = paises.
Proof.
  intros Hnd. induction paises as [|p paises IH]; [reflexivity|].
  rewrite GeoJoiner_cons, map_app, IH.
  destruct (coincidencias_a_lo_sumo_una p por_pais Hnd) as [->|[r ->]];
    reflexivity.
Qed.

Lemma GeoJoiner_filas (paises : list Poligono)
      (por_pais : list (string * celda)) (f : FilaMapa) :
  NoDup (List.map fst por_pais) ->
  In f (GeoJoiner paises por_pais) ->
  (coincidencias (poligono f) por_pais = [] /\ f = sin_datos (poligono f))
  \/ exists r, coincidencias (poligono f) por_pais = [r]
               /\ f = con_datos (poligono f) r.
Proof.
  intros Hnd. induction paises as [|p paises IH]; [intros []|].
  rewrite GeoJoiner_cons, in_app_iff.
  intros [Hf|Hf]; [|now apply IH].
  destruct (coincidencias_a_lo_sumo_una p por_pais Hnd) as [E|[r E]];
    rewrite E in Hf; simpl in Hf; destruct Hf as [<-|[]]; simpl.
  - left. now split.
  - right. exists r. now split.
Qed.

(** C4. Whenever the aggregate rows carry each country code at
    most once, the join returns exactly one row per polygon, in polygon
    order; a polygon without a matching aggregate row gets the value 0,
    and a matched one the value of its row (0 if that value is NaN).
    Every by-country table is such an aggregate, the empty one included,
    so in the application the map has one row per polygon. *)
Theorem GeoJoiner_completo (paises : list Poligono)
        (por_pais : list (string * celda)) :
  NoDup (List.map fst por_pais) ->
  List.map poligono (GeoJoiner paises por_pais) = paises
  /\ List.length (GeoJoiner paises por_pais) = List.length paises
  /\ (forall f, In f (GeoJoiner paises por_pais) ->
                coincidencias (poligono f) por_pais = [] ->
                codigo f = None /\ casos f = 0)
  /\ (forall f r, In f (GeoJoiner paises por_pais) ->
                  In r por_pais -> fst r = ADM0_ISO (poligono f) ->
                  codigo f = Some (fst r)
                  /\ casos f = Pandas.fillna 0 (snd r))
  /\ GeoJoiner paises [] = List.map sin_datos paises
  /\ (forall datos,
         List.length (GeoJoiner paises (casos_totales_por_pais datos))
         = List.length paises).
Proof.
  intros Hnd.
  pose proof (GeoJoiner_poligonos paises por_pais Hnd) as Hmap.
  split; [exact Hmap|].
  split; [now rewrite <- Hmap at 2; rewrite length_map|].
  split; [|split; [|split]].
  - intros f Hf Hvacio.
    destruct (GeoJoiner_filas paises por_pais f Hnd Hf)
      as [[_ ->]|[r [E _]]]; [now split|].
    rewrite Hvacio in E. discriminate.
  - intros f r Hf Hr Hclave.
    assert (Hin : In r (coincidencias (poligono f) por_pais))
      by now apply coincidencias_In.
    destruct (GeoJoiner_filas paises por_pais f Hnd Hf)
      as [[E _]|[r' [E ->]]]; rewrite E in Hin.
    + destruct Hin.
    + destruct Hin as [->|[]]. now split.
  - clear. induction paises as [|p paises IH]; [reflexivity|].
    rewrite GeoJoiner_cons, IH. reflexivity.
  - intros datos.
    rewrite <- (GeoJoiner_poligonos paises (casos_totales_por_pais datos)
                  (casos_totales_por_pais_NoDup datos)) at 2.
    now rewrite length_map.
Qed.

(** C6. When several aggregate rows match a polygon's code, the
    join returns one row for that polygon per matching aggregate row, in
    aggregate order, between the rows of the polygons before and after
    it; nothing else is returned. *)
Theorem GeoJoiner_varias_coincidencias (antes despues : list Poligono)
        (p : Poligono) (por_pais : list (string * celda)) :
  (2 <= List.length (coincidencias p por_pais))%nat ->
  GeoJoiner (antes ++ p :: despues)%list por_pais
  = (GeoJoiner antes por_pais
     ++ List.map (con_datos p) (coincidencias p por_pais)
     ++ GeoJoiner despues por_pais)%list.
Proof.
  intros Hdos. rewrite GeoJoiner_app, GeoJoiner_cons.
  destruct (coincidencias p por_pais) as [|r ms]; [simpl in Hdos; lia|].
  reflexivity.
Qed.

(** ** The colour scale *)

Lemma elemento_cabeza {A : Type} (a : A) (l : list A) :
  Branca.elemento (a :: l) 0 = Ok a.
Proof.
  unfold Branca.elemento.
  change (0 <? 0) with false. cbv iota.
  destruct (Z.leb_spec (Z.of_nat (List.length (a :: l))) 0) as [H|_].
  - simpl List.length in H. lia.
  - reflexivity.
Qed.

Lemma scale_YlOrRd_09 (lo hi : Q) :
  Branca.scale Branca.YlOrRd_09 lo hi
  = Ok {| Branca.colors := Branca.colors Branca.YlOrRd_09;
          Branca.index := List.map (estirar lo hi)
                                   (Branca.index Branca.YlOrRd_09);
          Branca.vmin := lo; Branca.vmax := hi;
          Branca.caption := Branca.caption Branca.YlOrRd_09 |}.
Proof.
  unfold Branca.scale.
  rewrite (map_m_ok _ (estirar lo hi)); [reflexivity|].
  intros x _. reflexivity.
Qed.

Lemma estirar_degenerado (q x : Q) : Qle_bool q (estirar q q x) = true.
Proof.
  apply Qle_bool_iff. unfold estirar.
  assert (E : (q + ((q - q) * (x - 0) * 1) / (1 - 0) == q)%Q) by field.
  rewrite E. apply Qle_refl.
Qed.

Lemma min_max_constante (v : Z) (paises : list FilaMapa) :
  paises <> [] -> (forall f, In f paises -> casos f = v) ->
  Pandas.min (List.map (fun f => Some (casos f)) paises) = Some v
  /\ Pandas.max (List.map (fun f => Some (casos f)) paises) = Some v.
Proof.
  induction paises as [|f paises IH]; [congruence|].
  intros _ H. simpl. rewrite (H f (or_introl eq_refl)).
  destruct paises as [|g paises]; [now split|].
  destruct IH as [-> ->]; [discriminate|intros h Hh; apply H; now right|].
  now rewrite Z.min_id, Z.max_id.
Qed.

(** C5. When every joined row holds the same value (zero everywhere when
    nothing matched), colouring the rows raises nothing -- no division is
    reached -- and every row gets the same colour, the lowest stop of the
    palette. *)
Theorem colorear_degenerado (paises : list FilaMapa) (v : Z) :
  (forall f, In f paises -> casos f = v) ->
  colorear paises
  = Ok (List.map (fun f => {| fila := f;
                              fillColor := Branca.hex 255 255 204 |})
                 paises).
Proof.
  intros H. destruct paises as [|f0 resto]; [reflexivity|].
  destruct (min_max_constante v (f0 :: resto)) as [Hmin Hmax];
    [discriminate|exact H|].
  unfold colorear, paleta_colores. rewrite Hmin, Hmax, scale_YlOrRd_09.
  cbn [bind]. apply map_m_ok. intros f Hf. rewrite (H f Hf).
  unfold Branca.rgba_floats_tuple.
  cbn [Branca.index Branca.colors Branca.YlOrRd_09 List.map].
  rewrite elemento_cabeza. cbn [bind].
  rewrite estirar_degenerado, elemento_cabeza. reflexivity.
Qed.

(** ** Date strings *)

Lemma digito_rango (c : ascii) (v : Z) :
  digito c = Some v -> 0 <= v <= 9 /\ Z.of_N (N_of_ascii c) = v + 48.
Proof.
  unfold digito.
  destruct (N.leb_spec 48 (N_of_ascii c)); simpl; [|discriminate].
  destruct (N.leb_spec (N_of_ascii c) 57); [|discriminate].
  intros [= <-]. lia.
Qed.

Lemma comparar_digitos (a b : ascii) (v w : Z) :
  digito a = Some v -> digito b = Some w ->
  Ascii.compare a b = (v ?= w).
Proof.
  intros Ha Hb.
  apply digito_rango in Ha. apply digito_rango in Hb.
  unfold Ascii.compare. rewrite <- N2Z.inj_compare.
  destruct Ha as [_ ->], Hb as [_ ->].
  rewrite (Z.add_comm v), (Z.add_comm w).
  apply Z.add_compare_mono_l.
Qed.

Lemma es_digito_valor (c : ascii) :
  es_digito c = true -> exists v, digito c = Some v.
Proof.
  unfold es_digito. destruct (digito c) as [v|]; [|discriminate].
  intros _. now exists v.
Qed.

Lemma leer_digitos_digito (c : ascii) (s : string) (v : Z) :
  digito c = Some v ->
  leer_digitos (String c s)
  = (v :: fst (leer_digitos s), snd (leer_digitos s)).
Proof.
  intros H. simpl. rewrite H. now destruct (leer_digitos s).
Qed.

Lemma leer_digitos_guion (s : string) :
  leer_digitos (String "-" s) = ([], String "-" s).
Proof. reflexivity. Qed.

(** The shape of a zero-padded ISO-8601 date, spelled out. *)
Lemma forma_iso_8601_inv (s : string) :
  forma_iso_8601 s = true ->
  exists y1 y2 y3 y4 m1 m2 d1 d2 a1 a2 a3 a4 b1 b2 c1 c2,
    s = String y1 (String y2 (String y3 (String y4 (String "-"
          (String m1 (String m2 (String "-"
          (String d1 (String d2 EmptyString)))))))))
    /\ digito y1 = Some a1 /\ digito y2 = Some a2
    /\ digito y3 = Some a3 /\ digito y4 = Some a4
    /\ digito m1 = Some b1 /\ digito m2 = Some b2
    /\ digito d1 = Some c1 /\ digito d2 = Some c2.
Proof.
  unfold forma_iso_8601. intros H.
  rewrite <- (string_of_list_ascii_of_string s).
  destruct (list_ascii_of_string s)
    as [|y1 [|y2 [|y3 [|y4 [|g1 [|m1 [|m2 [|g2 [|d1 [|d2 [|? ?]]]]]]]]]]];
    try discriminate.
  repeat (apply andb_true_iff in H; destruct H as [H ?]).
  repeat match goal with
         | E : es_digito _ = true |- _ =>
             apply es_digito_valor in E; destruct E as [? E]
         | E : Ascii.eqb _ _ = true |- _ => apply Ascii.eqb_eq in E; subst
         end.
  simpl. repeat eexists; first [reflexivity | eassumption].
Qed.

Lemma to_datetime_iso_8601 (s : string) (f : Fecha) :
  forma_iso_8601 s = true -> to_datetime s = Some f ->
  String.leb s FECHA_MAXIMA_DATOS_COVID
  = fecha_leb f fecha_maxima_datos_covid.
Proof.
  intros Hforma Hf.
  destruct (forma_iso_8601_inv s Hforma)
    as (y1 & y2 & y3 & y4 & m1 & m2 & d1 & d2
        & a1 & a2 & a3 & a4 & b1 & b2 & c1 & c2
        & -> & Hy1 & Hy2 & Hy3 & Hy4 & Hm1 & Hm2 & Hd1 & Hd2).
  unfold to_datetime in Hf.
  rewrite (leer_digitos_digito _ _ _ Hy1), (leer_digitos_digito _ _ _ Hy2),
    (leer_digitos_digito _ _ _ Hy3), (leer_digitos_digito _ _ _ Hy4),
    leer_digitos_guion in Hf.
  cbn [fst snd] in Hf.
  rewrite (leer_digitos_digito _ _ _ Hm1), (leer_digitos_digito _ _ _ Hm2),
    leer_digitos_guion in Hf.
  cbn [fst snd] in Hf.
  rewrite (leer_digitos_digito _ _ _ Hd1), (leer_digitos_digito _ _ _ Hd2)
    in Hf.
  cbn [fst snd leer_digitos List.length Nat.eqb Nat.leb andb] in Hf.
  destruct (fecha_valida _ _ _); [|discriminate].
  injection Hf as <-.
  unfold String.leb, FECHA_MAXIMA_DATOS_COVID. cbn [String.compare].
  rewrite (comparar_digitos y1 "2" a1 2 Hy1 eq_refl),
    (comparar_digitos y2 "0" a2 0 Hy2 eq_refl),
    (comparar_digitos y3 "2" a3 2 Hy3 eq_refl),
    (comparar_digitos y4 "4" a4 4 Hy4 eq_refl),
    (comparar_digitos m1 "0" b1 0 Hm1 eq_refl),
    (comparar_digitos m2 "8" b2 8 Hm2 eq_refl),
    (comparar_digitos d1 "0" c1 0 Hd1 eq_refl),
    (comparar_digitos d2 "4" c2 4 Hd2 eq_refl).
  change (Ascii.compare "-" "-") with Eq. cbv iota.
  apply digito_rango in Hy1, Hy2, Hy3, Hy4, Hm1, Hm2, Hd1, Hd2.
  unfold fecha_leb, fecha_compare, fecha_maxima_datos_covid, numero.
  cbn [anio mes dia fold_left].
  repeat match goal with
         | |- context [?a ?= ?b] => destruct (Z.compare_spec a b)
         end;
    first [reflexivity | lia].
Qed.

Lemma to_datetime_fecha_maxima :
  to_datetime FECHA_MAXIMA_DATOS_COVID = Some fecha_maxima_datos_covid.
Proof. reflexivity. Qed.

Lemma filtrar_fecha_In (fecha_maxima : string) (datos : list FilaCovid)
      (r : FilaCovid) :
  In r (filtrar_fecha fecha_maxima datos) <->
  In r datos /\ String.leb (date r) fecha_maxima = true.
Proof.
  unfold filtrar_fecha. rewrite seleccionar_map. apply filter_In.
Qed.

(** C9. The date bound is a comparison of the raw date string
    with the literal '2024-08-04', made before any date is parsed; for
    every record whose date string is a zero-padded ISO-8601 date, that
    comparison agrees with the comparison of the calendar dates, so such
    a record passes the filter exactly when its date is not after
    2024-08-04. *)
Theorem comparacion_de_fechas_iso (datos : list FilaCovid) (r : FilaCovid)
        (f fmax : Fecha) :
  forma_iso_8601 (date r) = true ->
  to_datetime (date r) = Some f ->
  to_datetime FECHA_MAXIMA_DATOS_COVID = Some fmax ->
  String.leb (date r) FECHA_MAXIMA_DATOS_COVID = fecha_leb f fmax
  /\ (In r (filtrar_fecha FECHA_MAXIMA_DATOS_COVID datos) <->
      In r datos /\ fecha_leb f fmax = true).
Proof.
  intros Hforma Hf Hmax.
  rewrite to_datetime_fecha_maxima in Hmax. injection Hmax as <-.
  pose proof (to_datetime_iso_8601 (date r) f Hforma Hf) as E.
  split; [exact E|].
  rewrite filtrar_fecha_In, E. reflexivity.
Qed.

(** A date string that is not zero-padded and still compares as its date
    does. *)
Lemma coincide_sin_ser_iso :
  to_datetime "2023-1-1" = Some {| anio := 2023; mes := 1; dia := 1 |}
  /\ to_datetime FECHA_MAXIMA_DATOS_COVID = Some fecha_maxima_datos_covid
  /\ ~ (String.leb "2023-1-1" FECHA_MAXIMA_DATOS_COVID
        = fecha_leb {| anio := 2023; mes := 1; dia := 1 |}
                    fecha_maxima_datos_covid
        <-> forma_iso_8601 "2023-1-1" = true).
Proof.
  split; [reflexivity|]. split; [reflexivity|].
  intros [H _]. specialize (H eq_refl). vm_compute in H. discriminate H.
Qed.

(** A date string that is not zero-padded and compares against its date:
    3 August 2024 is dropped by the filter. *)
Lemma difiere_sin_relleno :
  to_datetime "2024-8-3" = Some {| anio := 2024; mes := 8; dia := 3 |}
  /\ fecha_leb {| anio := 2024; mes := 8; dia := 3 |}
               fecha_maxima_datos_covid = true
  /\ String.leb "2024-8-3" FECHA_MAXIMA_DATOS_COVID = false.
Proof. repeat split. Qed.

(** ** Failure of the filter *)



(** ** The two variants *)

Lemma excluir_prefijo_sin_regiones (prefijo : string)
      (datos : list FilaCovid) :
  (forall r, In r datos -> String.prefix prefijo (iso_code r) = false) ->
  excluir_prefijo prefijo datos = datos.
Proof.
  intros H. unfold excluir_prefijo. rewrite seleccionar_map.
  apply filter_todos. intros r Hr. now rewrite (H r Hr).
Qed.

(** C10. On every input without an iso_code that starts with 'OWID', the
    two variants give the same result: the same table, time series and
    map, or the same exception.  Variant a has no exclusion step, and on
    an input with such a code the results can differ. *)
Theorem variantes_equivalentes :
  (forall datos paises,
      (forall r, In r datos -> String.prefix "OWID" (iso_code r) = false) ->
      app_a datos paises = app_b datos paises)
  /\ app_a ejemplo_datos ejemplo_paises <> app_b ejemplo_datos ejemplo_paises.
Proof.
  split.
  - intros datos paises H. unfold app_a, app_b, filtrado_inicial_b.
    rewrite excluir_prefijo_sin_regiones; [reflexivity|].
    intros r Hr. apply H.
    now apply (filtrar_fecha_In FECHA_MAXIMA_DATOS_COVID datos r).
  - intros H.
    apply (f_equal (fun s => match s with
                             | Ok x => List.length (tabla x)
                             | Error _ => 0%nat
                             end)) in H.
    vm_compute in H. discriminate H.
Qed.

(** ** Instances on the example data *)

(** Two aggregate rows for one code: the polygon comes out twice. *)
Lemma GeoJoiner_repite_poligono :
  ~ (List.length (GeoJoiner [territorio "USA"] ejemplo_repetido)
     = List.length [territorio "USA"]).
Proof. vm_compute. discriminate. Qed.

(** Two aggregate rows for one code: both are used, not the first alone. *)
Lemma GeoJoiner_no_elige_la_primera :
  GeoJoiner ejemplo_paises ejemplo_repetido
  = [con_datos (territorio "USA") ("USA", Some 100);
     con_datos (territorio "USA") ("USA", Some 150);
     sin_datos (territorio "CAN"); sin_datos (territorio "MEX")]
  /\ ~ (exists f,
          List.filter
            (fun g => String.eqb (ADM0_ISO (poligono g)) "USA")
            (GeoJoiner ejemplo_paises ejemplo_repetido) = [f]
          /\ casos f = 100).
Proof.
  split; [reflexivity|].
  intros [f [H _]]. vm_compute in H. discriminate H.
Qed.

Lemma casos_totales_por_pais_maximo_witness :
  In "CAN" (List.map codigo_iso ejemplo_tabla)
  /\ exists m,
      List.filter (fun fila => String.eqb (fst fila) "CAN")
                  (casos_totales_por_pais ejemplo_tabla) = [("CAN", m)]
      /\ maximo_de_columna m (casos_del_pais "CAN" ejemplo_tabla).
Proof.
  assert (H : In "CAN" (List.map codigo_iso ejemplo_tabla))
    by (simpl; auto).
  split; [exact H|].
  exact (casos_totales_por_pais_maximo ejemplo_tabla "CAN" H).
Defined.

Lemma GeoJoiner_completo_witness :
  NoDup (List.map fst (casos_totales_por_pais ejemplo_tabla))
  /\ List.map poligono
       (GeoJoiner ejemplo_paises (casos_totales_por_pais ejemplo_tabla))
     = ejemplo_paises.
Proof.
  assert (H : NoDup (List.map fst (casos_totales_por_pais ejemplo_tabla))).
  { vm_compute. repeat constructor; simpl; intuition discriminate. }
  split; [exact H|].
  exact (proj1 (GeoJoiner_completo ejemplo_paises
                  (casos_totales_por_pais ejemplo_tabla) H)).
Defined.

Lemma GeoJoiner_varias_coincidencias_witness :
  (2 <= List.length (coincidencias (territorio "USA") ejemplo_repetido))%nat
  /\ GeoJoiner ([territorio "CAN"] ++ territorio "USA" :: [territorio "MEX"])
               ejemplo_repetido
     = (GeoJoiner [territorio "CAN"] ejemplo_repetido
        ++ List.map (con_datos (territorio "USA"))
                    (coincidencias (territorio "USA") ejemplo_repetido)
        ++ GeoJoiner [territorio "MEX"] ejemplo_repetido)%list.
Proof.
  assert (H : (2 <= List.length
                      (coincidencias (territorio "USA") ejemplo_repetido))%nat)
    by (vm_compute; lia).
  split; [exact H|].
  exact (GeoJoiner_varias_coincidencias [territorio "CAN"]
           [territorio "MEX"] (territorio "USA") ejemplo_repetido H).
Defined.

Lemma colorear_degenerado_witness :
  (forall f, In f (GeoJoiner ejemplo_paises []) -> casos f = 0)
  /\ colorear (GeoJoiner ejemplo_paises [])
     = Ok (List.map (fun f => {| fila := f;
                                 fillColor := Branca.hex 255 255 204 |})
                    (GeoJoiner ejemplo_paises [])).
Proof.
  assert (H : forall f, In f (GeoJoiner ejemplo_paises []) -> casos f = 0).
  { simpl. intros f [<-|[<-|[<-|[]]]]; reflexivity. }
  split; [exact H|].
  exact (colorear_degenerado (GeoJoiner ejemplo_paises []) 0 H).
Defined.

Lemma agregaciones_excluyen_NaN_witness :
  In ({| anio := 2024; mes := 1; dia := 2 |}, Some 150)
     (casos_totales_por_fecha ejemplo_tabla)
  /\ Some 150
     = Some (total (valores_presentes
                      (casos_de_la_fecha {| anio := 2024; mes := 1; dia := 2 |}
                                        ejemplo_tabla))).
Proof.
  assert (H : In ({| anio := 2024; mes := 1; dia := 2 |}, Some 150)
                 (casos_totales_por_fecha ejemplo_tabla))
    by (vm_compute; auto).
  split; [exact H|].
  exact (proj1 (agregaciones_excluyen_NaN ejemplo_tabla) _ _ H).
Defined.

Lemma comparacion_de_fechas_iso_witness :
  forma_iso_8601 (date (registro "USA" "2024-01-02" (Some 150))) = true
  /\ to_datetime (date (registro "USA" "2024-01-02" (Some 150)))
     = Some {| anio := 2024; mes := 1; dia := 2 |}
  /\ to_datetime FECHA_MAXIMA_DATOS_COVID = Some fecha_maxima_datos_covid
  /\ String.leb (date (registro "USA" "2024-01-02" (Some 150)))
                FECHA_MAXIMA_DATOS_COVID
     = fecha_leb {| anio := 2024; mes := 1; dia := 2 |}
                 fecha_maxima_datos_covid.
Proof.
  split; [reflexivity|]. split; [reflexivity|]. split; [reflexivity|].
  exact (proj1 (comparacion_de_fechas_iso ejemplo_datos
                  (registro "USA" "2024-01-02" (Some 150))
                  {| anio := 2024; mes := 1; dia := 2 |}
                  fecha_maxima_datos_covid eq_refl eq_refl eq_refl)).
Defined.

Lemma variantes_equivalentes_witness :
  (forall r, In r ejemplo_sin_regiones ->
             String.prefix "OWID" (iso_code r) = false)
  /\ app_a ejemplo_sin_regiones ejemplo_paises
     = app_b ejemplo_sin_regiones ejemplo_paises.
Proof.
  assert (H : forall r, In r ejemplo_sin_regiones ->
                        String.prefix "OWID" (iso_code r) = false).
  { simpl. intros r [<-|[<-|[<-|[]]]]; reflexivity. }
  split; [exact H|].
  exact (proj1 variantes_equivalentes ejemplo_sin_regiones ejemplo_paises H).
Defined.

(** * Further properties of the pipeline *)

(** ** Order of the group keys *)

Section OrdenDeClaves.
Context {K : Type}.
Variable leb : K -> K -> bool.
Hypothesis leb_total : forall a b, leb a b = true \/ leb b a = true.
Hypothesis leb_trans :
  forall a b c, leb a b = true -> leb b c = true -> leb a c = true.

Let le (a b : K) : Prop := leb a b = true.

Lemma insertar_In (k x : K) (l : list K) :
  In x (Pandas.insertar leb k l) <-> x = k \/ In x l.
Proof.
  induction l as [|y l IH]; simpl; [intuition|].
  destruct (leb k y); simpl; [intuition|].
  rewrite IH. intuition.
Qed.

Lemma insertar_ordenada (k : K) (l : list K) :
  StronglySorted le l -> StronglySorted le (Pandas.insertar leb k l).
Proof.
  induction 1 as [|y l Hs IH Hy]; simpl.
  - repeat constructor.
  - destruct (leb k y) eqn:E.
    + constructor; [now constructor|].
      constructor; [exact E|].
      rewrite Forall_forall in *. intros z Hz.
      apply leb_trans with y; auto. now apply Hy.
    + constructor; [exact IH|].
      rewrite Forall_forall in *. intros z Hz.
      apply insertar_In in Hz. destruct Hz as [->|Hz]; [|now apply Hy].
      destruct (leb_total k y) as [H|H]; [congruence|exact H].
Qed.

Lemma ordenar_ordenada (l : list K) :
  StronglySorted le (Pandas.ordenar leb l).
Proof.
  induction l as [|k l IH]; simpl; [constructor|].
  now apply insertar_ordenada.
Qed.

Lemma ordenada_estricta (l : list K) :
  NoDup l -> StronglySorted le l ->
  StronglySorted (fun a b => leb a b = true /\ a <> b) l.
Proof.
  induction 2 as [|y l Hs IH Hy]; [constructor|].
  inversion H as [|? ? Hnin Hnd]; subst.
  constructor; [now apply IH|].
  rewrite Forall_forall in *. intros z Hz. split; [now apply Hy|].
  intros ->. contradiction.
Qed.
End OrdenDeClaves.

Lemma fecha_leb_total (a b : Fecha) :
  fecha_leb a b = true \/ fecha_leb b a = true.
Proof.
  unfold fecha_leb, fecha_compare.
  destruct (Z.compare_spec (anio a) (anio b)),
           (Z.compare_spec (anio b) (anio a)),
           (Z.compare_spec (mes a) (mes b)),
           (Z.compare_spec (mes b) (mes a)),
           (Z.compare_spec (dia a) (dia b)),
           (Z.compare_spec (dia b) (dia a)); auto; lia.
Qed.

Lemma fecha_leb_trans (a b c : Fecha) :
  fecha_leb a b = true -> fecha_leb b c = true -> fecha_leb a c = true.
Proof.
  unfold fecha_leb, fecha_compare.
  destruct (Z.compare_spec (anio a) (anio b)),
           (Z.compare_spec (anio b) (anio c)),
           (Z.compare_spec (anio a) (anio c)),
           (Z.compare_spec (mes a) (mes b)),
           (Z.compare_spec (mes b) (mes c)),
           (Z.compare_spec (mes a) (mes c)),
           (Z.compare_spec (dia a) (dia b)),
           (Z.compare_spec (dia b) (dia c)),
           (Z.compare_spec (dia a) (dia c));
    intros; first [reflexivity | discriminate | lia].
Qed.

(** X1. The time series has exactly one row per date present in the
    records, and its rows are in strictly ascending chronological
    order. *)
Theorem casos_totales_por_fecha_cronologico (datos : list FilaTabla) :
  creciente fecha_leb (List.map fst (casos_totales_por_fecha datos))
  /\ forall d, In d (List.map fst (casos_totales_por_fecha datos))
               <-> In d (List.map fecha datos).
Proof.
  unfold casos_totales_por_fecha.
  rewrite (groupby_claves Fecha_dec fecha_leb). split.
  - apply ordenada_estricta; [apply claves_NoDup|].
    apply ordenar_ordenada; [exact fecha_leb_total|exact fecha_leb_trans].
  - intros d. apply claves_In.
Qed.

(** ** The projection *)

Lemma proyectar_fila_Ok (r : FilaCovid) (t : FilaTabla) :
  proyectar_fila r = Ok t <-> proyectada r t.
Proof.
  unfold proyectar_fila, proyectada.
  destruct (to_datetime (date r)) as [f|]; split.
  - intros [= <-]. simpl. auto.
  - destruct t as [c p f' n m]. simpl.
    intros ([= ->] & -> & -> & -> & ->). reflexivity.
  - discriminate.
  - intros [H _]. discriminate.
Qed.

Lemma map_m_Forall2 {A B : Type} (f : A -> resultado B) (l : list A)
      (bs : list B) :
  map_m f l = Ok bs <-> Forall2 (fun a b => f a = Ok b) l bs.
Proof.
  revert bs. induction l as [|a l IH]; intros bs; simpl.
  - split; [intros [= <-]; constructor|intros H; now inversion H].
  - destruct (f a) as [b|e] eqn:E; simpl.
    + destruct (map_m f l) as [bs'|e] eqn:M; simpl.
      * split.
        -- intros [= <-]. constructor; [exact E|now apply IH].
        -- intros H. inversion H as [|? b' ? bs'' Hb Hbs]; subst.
           apply IH in Hbs. congruence.
      * split; [discriminate|].
        intros H. inversion H as [|? b' ? bs'' Hb Hbs]; subst.
        apply IH in Hbs. discriminate.
    + split; [discriminate|].
      intros H. inversion H; subst. congruence.
Qed.

Lemma proyectar_fila_a_fila_aux (datos : list FilaCovid)
      (tabla : list FilaTabla) :
  proyectar datos = Ok tabla -> Forall2 proyectada datos tabla.
Proof.
  unfold proyectar. rewrite map_m_Forall2.
  intros H; induction H; constructor; auto. now apply proyectar_fila_Ok.
Qed.




(** ** Lookups in the colour scale *)

Lemma elemento_Ok {A : Type} (l : list A) (i : Z) :
  0 <= i < Z.of_nat (List.length l) ->
  exists a, Branca.elemento l i = Ok a
            /\ nth_error l (Z.to_nat i) = Some a.
Proof.
  intros Hi. unfold Branca.elemento. cbv zeta.
  destruct (Z.ltb_spec i 0) as [H|_]; [lia|]. cbv iota.
  destruct (Z.ltb_spec i 0) as [H|_]; [lia|].
  destruct (Z.leb_spec (Z.of_nat (List.length l)) i) as [H|_]; [lia|].
  cbn [orb]. cbv iota.
  destruct (nth_error l (Z.to_nat i)) as [a|] eqn:E.
  - now exists a.
  - apply nth_error_None in E. lia.
Qed.

Lemma elemento_ultimo {A : Type} (l : list A) (a : A) :
  Branca.elemento (l ++ [a]) (-1) = Ok a.
Proof.
  unfold Branca.elemento. cbv zeta. change (-1 <? 0) with true. cbv iota.
  rewrite length_app. cbn [List.length].
  assert (E : -1 + Z.of_nat (List.length l + 1) = Z.of_nat (List.length l))
    by lia.
  rewrite E.
  destruct (Z.ltb_spec (Z.of_nat (List.length l)) 0); [lia|].
  destruct (Z.leb_spec (Z.of_nat (List.length l + 1))
                       (Z.of_nat (List.length l))); [lia|].
  cbn [orb]. cbv iota.
  rewrite Nat2Z.id, nth_error_app2, Nat.sub_diag by lia. reflexivity.
Qed.

Section EscalaOrdenada.
Variable x : Q.

Let menores (l : list Q) : list Q :=
  List.filter (fun u => negb (Qle_bool x u)) l.
Let mayores (l : list Q) : list Q :=
  List.filter (fun u => Qle_bool x u) l.

Lemma menores_In (l : list Q) (u : Q) : In u (menores l) -> (u < x)%Q.
Proof.
  unfold menores. rewrite filter_In, negb_true_iff. intros [_ H].
  apply Qnot_le_lt. intros Hle. apply Qle_bool_iff in Hle. congruence.
Qed.

Lemma mayores_In (l : list Q) (u : Q) : In u (mayores l) -> (x <= u)%Q.
Proof.
  unfold mayores. rewrite filter_In. intros [_ H]. now apply Qle_bool_iff.
Qed.

Lemma ordenada_menores_mayores (l : list Q) :
  StronglySorted Qle l -> l = (menores l ++ mayores l)%list.
Proof.
  induction 1 as [|u l Hs IH Hu]; [reflexivity|].
  unfold menores, mayores in *. simpl.
  destruct (Qle_bool x u) eqn:E; simpl.
  - assert (Htodos : forall v, In v l -> Qle_bool x v = true).
    { intros v Hv. rewrite Forall_forall in Hu. apply Qle_bool_iff.
      apply Qle_trans with u; [now apply Qle_bool_iff|now apply Hu]. }
    rewrite (filter_todos (fun u0 => Qle_bool x u0) l Htodos).
    replace (List.filter (fun u0 => negb (Qle_bool x u0)) l) with (@nil Q);
      [reflexivity|].
    symmetry. clear -Htodos. induction l as [|v l IH]; [reflexivity|].
    simpl. rewrite (Htodos v (or_introl eq_refl)). simpl.
    apply IH. intros w Hw. apply Htodos. now right.
  - now rewrite <- IH.
Qed.

(** Between the first and the last stop of an ascending index, the two
    stops around [x] exist and differ. *)
Lemma vecinos_distintos (l : list Q) :
  StronglySorted Qle l ->
  (exists u, In u l /\ Qle_bool x u = false) ->
  (exists u, In u l /\ Qle_bool x u = true) ->
  let i := Z.of_nat (List.length (menores l)) in
  1 <= i < Z.of_nat (List.length l)
  /\ exists u0 u1,
      Branca.elemento l (i - 1) = Ok u0
      /\ Branca.elemento l i = Ok u1
      /\ Qeq_bool (u1 - u0) 0 = false
      /\ (u0 < x)%Q /\ (x <= u1)%Q.
Proof.
  intros Hs (a & Ha & Ea) (b & Hb & Eb) i.
  assert (Hmen : menores l <> []).
  { intros H. assert (Hin : In a (menores l)).
    { unfold menores. apply filter_In. now rewrite Ea. }
    rewrite H in Hin. destruct Hin. }
  assert (Hmay : mayores l <> []).
  { intros H. assert (Hin : In b (mayores l)).
    { unfold mayores. now apply filter_In. }
    rewrite H in Hin. destruct Hin. }
  pose proof (ordenada_menores_mayores l Hs) as Hl.
  assert (Hlen : List.length l
                 = (List.length (menores l) + List.length (mayores l))%nat)
    by (rewrite Hl at 1; apply length_app).
  assert (Hi : 1 <= i < Z.of_nat (List.length l)).
  { subst i. destruct (menores l); [congruence|].
    destruct (mayores l); [congruence|]. simpl in *. lia. }
  split; [exact Hi|].
  destruct (elemento_Ok l (i - 1)) as (u0 & E0 & N0); [lia|].
  destruct (elemento_Ok l i) as (u1 & E1 & N1); [lia|].
  exists u0, u1.
  assert (H0 : (u0 < x)%Q).
  { apply (menores_In l). rewrite Hl in N0.
    rewrite nth_error_app1 in N0 by (subst i; lia).
    now apply nth_error_In in N0. }
  assert (H1 : (x <= u1)%Q).
  { apply (mayores_In l). rewrite Hl in N1.
    rewrite nth_error_app2 in N1 by (subst i; lia).
    now apply nth_error_In in N1. }
  repeat split; auto.
  destruct (Qeq_bool (u1 - u0) 0) eqn:E; [|reflexivity].
  apply Qeq_bool_iff in E. lra.
Qed.
End EscalaOrdenada.

(** ** The colour scale never fails *)

(** On an ascending index with as many colours as stops, the scale
    answers for every [x]. *)
Lemma rgba_floats_tuple_total (self : Branca.LinearColormap) (x : Q) :
  Branca.index self <> [] ->
  List.length (Branca.colors self) = List.length (Branca.index self) ->
  StronglySorted Qle (Branca.index self) ->
  exists c, Branca.rgba_floats_tuple self x = Ok c.
Proof.
  intros Hne Hlen Hs. unfold Branca.rgba_floats_tuple.
  destruct (Branca.index self) as [|i0 resto] eqn:Hidx; [congruence|].
  destruct (Branca.colors self) as [|c0 cresto] eqn:Hcol; [discriminate|].
  rewrite elemento_cabeza. cbn [bind].
  destruct (Qle_bool x i0) eqn:E1.
  { rewrite elemento_cabeza. now exists c0. }
  destruct (exists_last (l := i0 :: resto)) as (li & ult & Eli);
    [discriminate|].
  destruct (exists_last (l := c0 :: cresto)) as (lc & cult & Elc);
    [discriminate|].
  assert (Eult : Branca.elemento (i0 :: resto) (-1) = Ok ult)
    by (rewrite Eli; apply elemento_ultimo).
  rewrite Eult. cbn [bind].
  destruct (Qle_bool ult x) eqn:E2.
  { rewrite Elc, elemento_ultimo. now exists cult. }
  destruct (vecinos_distintos x (i0 :: resto) Hs)
    as (Hi & u0 & u1 & E0 & E1' & Ediv & _).
  - exists i0. split; [now left|exact E1].
  - exists ult. split; [rewrite Eli; apply in_or_app; right; now left|].
    apply Qle_bool_iff. apply Qlt_le_weak, Qnot_le_lt.
    intros H. apply Qle_bool_iff in H. congruence.
  - rewrite E0, E1'. cbn [bind]. unfold Branca.dividir. rewrite Ediv.
    cbn [bind].
    destruct (elemento_Ok (c0 :: cresto)
                (Z.of_nat (List.length
                   (List.filter (fun u => negb (Qle_bool x u)) (i0 :: resto)))
                 - 1)) as (k0 & Ek0 & _); [rewrite Hlen; lia|].
    destruct (elemento_Ok (c0 :: cresto)
                (Z.of_nat (List.length
                   (List.filter (fun u => negb (Qle_bool x u)) (i0 :: resto)))))
      as (k1 & Ek1 & _); [rewrite Hlen; lia|].
    rewrite Ek0, Ek1. cbn [bind]. eexists. reflexivity.
Qed.

Lemma estirar_lineal (lo hi a : Q) :
  (estirar lo hi a == lo + (hi - lo) * a)%Q.
Proof. unfold estirar. field. Qed.

Lemma estirar_monotona (lo hi a b : Q) :
  (lo <= hi)%Q -> (a <= b)%Q -> (estirar lo hi a <= estirar lo hi b)%Q.
Proof.
  intros Hlh Hab. rewrite !estirar_lineal. nra.
Qed.

Lemma ordenada_map (f : Q -> Q) (l : list Q) :
  (forall a b, (a <= b)%Q -> (f a <= f b)%Q) ->
  StronglySorted Qle l -> StronglySorted Qle (List.map f l).
Proof.
  intros Hf. induction 1 as [|u l Hs IH Hu]; simpl; constructor; auto.
  rewrite Forall_forall in *. intros v Hv.
  apply in_map_iff in Hv. destruct Hv as (w & <- & Hw). auto.
Qed.

Lemma YlOrRd_09_ordenada :
  StronglySorted Qle (Branca.index Branca.YlOrRd_09).
Proof.
  simpl.
  repeat (apply SSorted_cons; [|repeat (apply Forall_cons; [discriminate|]);
                                apply Forall_nil]).
  apply SSorted_nil.
Qed.

Lemma min_es_minimo (columna : list celda) :
  match Pandas.min columna with
  | Some m => In m (valores_presentes columna)
              /\ forall v, In v (valores_presentes columna) -> m <= v
  | None => valores_presentes columna = []
  end.
Proof.
  induction columna as [|[v|] c IH]; simpl; [reflexivity| |exact IH].
  destruct (Pandas.min c) as [m|]; simpl in *.
  - destruct IH as [Hin Hle]. split.
    + destruct (Z.min_spec v m) as [[_ ->]|[_ ->]]; simpl; auto.
    + intros w [<-|Hw]; [lia|]. specialize (Hle w Hw). lia.
  - rewrite IH. split; [now left|].
    intros w [<-|[]]. lia.
Qed.

Lemma valores_columna_casos (filas : list FilaMapa) :
  valores_presentes (List.map (fun f => Some (casos f)) filas)
  = List.map casos filas.
Proof.
  induction filas as [|f filas IH]; simpl; [reflexivity|]. now rewrite IH.
Qed.

(** The minimum and the maximum of the joined column: both NaN exactly for
    the empty table, otherwise attained bounds. *)
Lemma min_max_columna (filas : list FilaMapa) :
  (filas = []
   /\ Pandas.min (List.map (fun f => Some (casos f)) filas) = None
   /\ Pandas.max (List.map (fun f => Some (casos f)) filas) = None)
  \/ exists lo hi,
      Pandas.min (List.map (fun f => Some (casos f)) filas) = Some lo
      /\ Pandas.max (List.map (fun f => Some (casos f)) filas) = Some hi
      /\ In lo (List.map casos filas) /\ In hi (List.map casos filas)
      /\ forall v, In v (List.map casos filas) -> lo <= v <= hi.
Proof.
  pose proof (min_es_minimo (List.map (fun f => Some (casos f)) filas)) as Hmin.
  pose proof (max_es_maximo (List.map (fun f => Some (casos f)) filas)) as Hmax.
  unfold maximo_de_columna, es_maximo_de in Hmax.
  rewrite valores_columna_casos in *.
  destruct (Pandas.min _) as [lo|], (Pandas.max _) as [hi|].
  - right. exists lo, hi. destruct Hmin as [? Hlo], Hmax as [? Hhi].
    repeat split; auto.
  - destruct Hmin as [Hin _]. rewrite Hmax in Hin. destruct Hin.
  - destruct Hmax as [Hin _]. rewrite Hmin in Hin. destruct Hin.
  - left. repeat split. now apply map_eq_nil in Hmin.
Qed.

Lemma paleta_escalada_total (lo hi : Z) (x : Q) :
  lo <= hi ->
  exists c,
    Branca.rgba_floats_tuple
      {| Branca.colors := Branca.colors Branca.YlOrRd_09;
         Branca.index := List.map (estirar (inject_Z lo) (inject_Z hi))
                                  (Branca.index Branca.YlOrRd_09);
         Branca.vmin := inject_Z lo; Branca.vmax := inject_Z hi;
         Branca.caption := Branca.caption Branca.YlOrRd_09 |} x = Ok c.
Proof.
  intros Hle. apply rgba_floats_tuple_total.
  - discriminate.
  - reflexivity.
  - cbn [Branca.index]. apply ordenada_map; [|exact YlOrRd_09_ordenada].
    intros a b. apply estirar_monotona.
    rewrite <- Zle_Qle. exact Hle.
Qed.

Lemma map_m_total {A B : Type} (f : A -> resultado B) (g : B -> A)
      (l : list A) :
  (forall a, In a l -> exists b, f a = Ok b /\ g b = a) ->
  exists bs, map_m f l = Ok bs /\ List.map g bs = l.
Proof.
  induction l as [|a l IH]; intros H; simpl.
  - now exists [].
  - destruct (H a (or_introl eq_refl)) as (b & -> & Hb).
    destruct IH as (bs & -> & Hbs); [intros x Hx; apply H; now right|].
    exists (b :: bs). simpl. now rewrite Hb, Hbs.
Qed.

Lemma colorear_total (filas : list FilaMapa) :
  exists entidades,
    colorear filas = Ok entidades /\ List.map fila entidades = filas.
Proof.
  unfold colorear, paleta_colores.
  destruct (min_max_columna filas)
    as [(-> & _ & _)|(lo & hi & -> & -> & Hlo & Hhi & Hb)].
  - now exists [].
  - rewrite scale_YlOrRd_09. cbn [bind].
    apply map_m_total. intros f Hf.
    destruct (paleta_escalada_total lo hi (inject_Z (casos f))) as [c ->].
    + destruct (Hb lo Hlo). lia.
    + cbn [bind]. eexists. split; reflexivity.
Qed.

(** X4. Colouring never raises, whatever the joined table: no division by
    zero and no index out of range is reached in the colour scale, and
    the layer has one feature per row, in row order, holding that row. *)
Theorem colorear_nunca_falla (filas : list FilaMapa) :
  exists entidades,
    colorear filas = Ok entidades
    /\ List.map fila entidades = filas
    /\ List.length entidades = List.length filas
    /\ forall e, In e entidades -> In (fila e) filas.
Proof.
  destruct (colorear_total filas) as (es & Hes & Hfilas).
  exists es. split; [exact Hes|]. split; [exact Hfilas|]. split.
  - rewrite <- Hfilas. now rewrite length_map.
  - intros e He. rewrite <- Hfilas. now apply in_map.
Qed.

(** ** What colour a row gets *)

Lemma Forall2_In_r {A B : Type} (R : A -> B -> Prop) (l : list A)
      (l' : list B) (b : B) :
  Forall2 R l l' -> In b l' -> exists a, In a l /\ R a b.
Proof.
  induction 1 as [|a b' l l' Hab HF IH]; [intros []|].
  intros [<-|Hb].
  - exists a. split; [now left|exact Hab].
  - destruct (IH Hb) as (a' & Ha' & HR). exists a'. split; [now right|exact HR].
Qed.

(** A successful colouring, row by row: the scale is the palette stretched
    onto the column's minimum and maximum, and each feature holds its row
    and the scale's answer for the row's value. *)
Lemma colorear_Ok (filas : list FilaMapa) (entidades : list Entidad) :
  colorear filas = Ok entidades ->
  (filas = [] /\ entidades = [])
  \/ exists lo hi,
      In lo (List.map casos filas) /\ In hi (List.map casos filas)
      /\ (forall v, In v (List.map casos filas) -> lo <= v <= hi)
      /\ Forall2 (fun f e =>
                    fila e = f
                    /\ Branca.rgba_floats_tuple
                         (escalada (inject_Z lo) (inject_Z hi))
                         (inject_Z (casos f)) = Ok (fillColor e))
                 filas entidades.
Proof.
  unfold colorear, paleta_colores.
  destruct (min_max_columna filas)
    as [(-> & _ & _)|(lo & hi & -> & -> & Hlo & Hhi & Hb)].
  - simpl. intros [= <-]. now left.
  - rewrite scale_YlOrRd_09. cbn [bind]. intros H. right.
    exists lo, hi.
    split; [exact Hlo|]. split; [exact Hhi|]. split; [exact Hb|].
    apply map_m_Forall2 in H. clear Hlo Hhi Hb.
    induction H as [|f e filas' es' Hfe HF IH]; constructor; auto.
    fold (escalada (inject_Z lo) (inject_Z hi)) in Hfe.
    destruct (Branca.rgba_floats_tuple _ _) as [c|]; [|discriminate].
    simpl in Hfe. injection Hfe as <-. now split.
Qed.

Lemma escalada_minimo (lo hi : Q) :
  Branca.rgba_floats_tuple (escalada lo hi) lo = Ok (Branca.hex 255 255 204).
Proof.
  unfold Branca.rgba_floats_tuple, escalada.
  cbn [Branca.index Branca.colors Branca.YlOrRd_09 List.map].
  rewrite elemento_cabeza. cbn [bind].
  assert (E : Qle_bool lo (estirar lo hi (inject_Z 0 / 8)) = true).
  { apply Qle_bool_iff. rewrite estirar_lineal.
    assert (Z0 : (inject_Z 0 / 8 == 0)%Q) by reflexivity.
    rewrite Z0. lra. }
  rewrite E. apply elemento_cabeza.
Qed.

Lemma escalada_maximo (lo hi : Q) :
  (lo < hi)%Q ->
  Branca.rgba_floats_tuple (escalada lo hi) hi = Ok (Branca.hex 128 0 38).
Proof.
  intros Hlt. unfold Branca.rgba_floats_tuple, escalada.
  cbn [Branca.index Branca.colors Branca.YlOrRd_09 List.map].
  rewrite elemento_cabeza. cbn [bind].
  assert (E : Qle_bool hi (estirar lo hi (inject_Z 0 / 8)) = false).
  { destruct (Qle_bool hi _) eqn:E; [|reflexivity].
    apply Qle_bool_iff in E. rewrite estirar_lineal in E.
    assert (Z0 : (inject_Z 0 / 8 == 0)%Q) by reflexivity.
    rewrite Z0 in E. lra. }
  rewrite E.
  match goal with
  | |- context [Branca.elemento (?a0 :: ?a1 :: ?a2 :: ?a3 :: ?a4 :: ?a5
                                  :: ?a6 :: ?a7 :: [?a8]) (-1)] =>
      change (a0 :: a1 :: a2 :: a3 :: a4 :: a5 :: a6 :: a7 :: [a8])
        with ([a0; a1; a2; a3; a4; a5; a6; a7] ++ [a8])%list
  end.
  rewrite elemento_ultimo. cbn [bind].
  assert (E8 : Qle_bool (estirar lo hi (inject_Z 8 / 8)) hi = true).
  { apply Qle_bool_iff. rewrite estirar_lineal.
    assert (Z8 : (inject_Z 8 / 8 == 1)%Q) by reflexivity.
    rewrite Z8. lra. }
  rewrite E8.
  change [Branca.hex 255 255 204; Branca.hex 255 237 160;
          Branca.hex 254 217 118; Branca.hex 254 178 76;
          Branca.hex 253 141 60; Branca.hex 252 78 42;
          Branca.hex 227 26 28; Branca.hex 189 0 38; Branca.hex 128 0 38]
    with ([Branca.hex 255 255 204; Branca.hex 255 237 160;
           Branca.hex 254 217 118; Branca.hex 254 178 76;
           Branca.hex 253 141 60; Branca.hex 252 78 42;
           Branca.hex 227 26 28; Branca.hex 189 0 38]
          ++ [Branca.hex 128 0 38])%list.
  apply elemento_ultimo.
Qed.

(** X5. In the coloured layer, a row holding the least value of the column
    gets the lowest stop of the palette, and, when the column holds more
    than one value, a row holding the greatest value gets the highest
    stop. *)
Theorem colorear_extremos (filas : list FilaMapa)
        (entidades : list Entidad) (e : Entidad) :
  colorear filas = Ok entidades -> In e entidades ->
  ((forall f, In f filas -> casos (fila e) <= casos f) ->
   fillColor e = Branca.hex 255 255 204)
  /\ ((forall f, In f filas -> casos f <= casos (fila e)) ->
      (exists f, In f filas /\ casos f < casos (fila e)) ->
      fillColor e = Branca.hex 128 0 38).
Proof.
  intros Hcol He.
  destruct (colorear_Ok filas entidades Hcol)
    as [[_ ->]|(lo & hi & Hlo & Hhi & Hb & HF)]; [destruct He|].
  destruct (Forall2_In_r _ _ _ _ HF He) as (f & Hf & Hfe & Hc).
  rewrite Hfe.
  apply in_map_iff in Hlo. destruct Hlo as (flo & Elo & Hflo).
  apply in_map_iff in Hhi. destruct Hhi as (fhi & Ehi & Hfhi).
  assert (Hfb : lo <= casos f <= hi) by (apply Hb; now apply in_map).
  split.
  - intros Hmin. specialize (Hmin flo Hflo).
    assert (E : casos f = lo) by lia.
    rewrite E, escalada_minimo in Hc. now injection Hc.
  - intros Hmax (g & Hg & Hlt). specialize (Hmax fhi Hfhi).
    assert (E : casos f = hi) by lia.
    assert (Hgb : lo <= casos g <= hi) by (apply Hb; now apply in_map).
    rewrite E, escalada_maximo in Hc; [now injection Hc|].
    rewrite <- Zlt_Qlt. lia.
Qed.

(** ** The map, polygon by polygon *)

Lemma coincidencias_por_pais (datos : list FilaTabla) (p : Poligono) :
  coincidencias p (casos_totales_por_pais datos)
  = if in_dec string_dec (ADM0_ISO p) (List.map codigo_iso datos)
    then [(ADM0_ISO p, Pandas.max (casos_del_pais (ADM0_ISO p) datos))]
    else [].
Proof.
  destruct (in_dec string_dec _ _) as [Hin|Hnin].
  - rewrite <- grupo_pais. unfold coincidencias, casos_totales_por_pais.
    rewrite <- (groupby_fila_unica string_dec String.leb codigo_iso
                  casos_totales Pandas.max datos (ADM0_ISO p) Hin).
    apply filter_ext. intros [k v]. simpl.
    destruct (string_dec k (ADM0_ISO p)) as [->|Hne].
    + apply String.eqb_refl.
    + now apply String.eqb_neq.
  - apply coincidencias_sin_clave. intros H. apply Hnin.
    unfold casos_totales_por_pais in H.
    rewrite (groupby_claves string_dec String.leb) in H.
    now apply claves_In in H.
Qed.

Lemma GeoJoiner_por_pais (paises : list Poligono) (datos : list FilaTabla) :
  GeoJoiner paises (casos_totales_por_pais datos)
  = List.map (fila_del_mapa datos) paises.
Proof.
  induction paises as [|p paises IH]; [reflexivity|].
  rewrite GeoJoiner_cons, IH, coincidencias_por_pais. cbn [List.map].
  generalize (List.map (fila_del_mapa datos) paises) as resto. intros resto.
  unfold fila_del_mapa.
  destruct (in_dec string_dec _ _); reflexivity.
Qed.

(** X6. The value the map shows for a polygon: if some record of the table
    carries the polygon's code, the greatest count among that country's
    records, or 0 when all its counts are NaN; if no record carries the
    code, 0 and no matched code. *)
Theorem GeoJoiner_valor (paises : list Poligono) (datos : list FilaTabla)
        (f : FilaMapa) :
  In f (GeoJoiner paises (casos_totales_por_pais datos)) ->
  In (poligono f) paises
  /\ (In (ADM0_ISO (poligono f)) (List.map codigo_iso datos) ->
      codigo f = Some (ADM0_ISO (poligono f))
      /\ exists m,
          maximo_de_columna m (casos_del_pais (ADM0_ISO (poligono f)) datos)
          /\ casos f = Pandas.fillna 0 m)
  /\ (~ In (ADM0_ISO (poligono f)) (List.map codigo_iso datos) ->
      codigo f = None /\ casos f = 0).
Proof.
  rewrite GeoJoiner_por_pais, in_map_iff. intros (p & <- & Hp).
  unfold fila_del_mapa.
  destruct (in_dec string_dec _ _) as [Hin|Hnin]; simpl.
  - split; [exact Hp|]. split; [|contradiction].
    intros _. split; [reflexivity|].
    eexists. split; [apply max_es_maximo|reflexivity].
  - split; [exact Hp|]. split; [contradiction|]. now intros _.
Qed.

(** ** Region rows and the map *)





Lemma presentar_Ok (datos : list FilaCovid) (paises : list Poligono)
      (s : Salida) :
  presentar datos paises = Ok s <->
  proyectar datos = Ok (tabla s)
  /\ grafico s = casos_totales_por_fecha (tabla s)
  /\ colorear (GeoJoiner paises (casos_totales_por_pais (tabla s)))
     = Ok (mapa s).
Proof.
  unfold presentar.
  destruct (proyectar datos) as [t|e]; simpl.
  - destruct (colorear (GeoJoiner paises (casos_totales_por_pais t)))
      as [es|e] eqn:Ec; simpl.
    + split.
      * intros [= <-]. simpl. auto.
      * destruct s as [t' g' m']. simpl.
        intros ([= ->] & -> & H). rewrite Ec in H. now injection H as ->.
    + split; [discriminate|].
      intros ([= ->] & _ & H). rewrite Ec in H. discriminate.
  - split; [discriminate|]. intros [H _]. discriminate.
Qed.


(** ** Success and failure of the whole script *)



(** ** Invariants of the table *)

Lemma filtrado_inicial_b_In (datos : list FilaCovid) (r : FilaCovid) :
  In r (filtrado_inicial_b datos) <->
  In r datos
  /\ String.leb (date r) FECHA_MAXIMA_DATOS_COVID = true
  /\ String.prefix "OWID" (iso_code r) = false.
Proof.
  unfold filtrado_inicial_b, excluir_prefijo.
  rewrite seleccionar_map, filter_In, filtrar_fecha_In, negb_true_iff.
  tauto.
Qed.

(** X9. In the table variant b shows, no code starts with 'OWID'; every
    row is the projection of an input record whose date string is at most
    '2024-08-04', and when that string is a zero-padded ISO-8601 date the
    row's 'Fecha' is not after 4 August 2024. *)
Theorem tabla_b_invariantes (datos : list FilaCovid)
        (paises : list Poligono) (s : Salida) (t : FilaTabla) :
  app_b datos paises = Ok s -> In t (tabla s) ->
  String.prefix "OWID" (codigo_iso t) = false
  /\ exists r,
      In r datos /\ proyectada r t
      /\ String.leb (date r) FECHA_MAXIMA_DATOS_COVID = true
      /\ (forma_iso_8601 (date r) = true ->
          fecha_leb (fecha t) fecha_maxima_datos_covid = true).
Proof.
  unfold app_b. intros Hs Ht.
  apply presentar_Ok in Hs. destruct Hs as (Hp & _ & _).
  apply proyectar_fila_a_fila_aux in Hp.
  destruct (Forall2_In_r _ _ _ _ Hp Ht) as (r & Hr & Hrt).
  apply filtrado_inicial_b_In in Hr. destruct Hr as (Hin & Hd & Hc).
  pose proof Hrt as (Hf & Ec & _).
  split; [now rewrite Ec|].
  exists r. repeat split; auto; try apply Hrt.
  intros Hiso. now rewrite <- (to_datetime_iso_8601 (date r) (fecha t)).
Qed.

(** ** Further instances on the example data *)

Lemma GeoJoiner_valor_witness :
  In (con_datos (territorio "USA") ("USA", Some 150)) ejemplo_filas
  /\ exists m,
      maximo_de_columna m (casos_del_pais "USA" ejemplo_tabla)
      /\ casos (con_datos (territorio "USA") ("USA", Some 150))
         = Pandas.fillna 0 m.
Proof.
  assert (H : In (con_datos (territorio "USA") ("USA", Some 150))
                 ejemplo_filas) by (vm_compute; auto).
  split; [exact H|].
  apply (proj1 (proj2 (GeoJoiner_valor ejemplo_paises ejemplo_tabla _ H))).
  simpl. auto.
Defined.

Lemma colorear_extremos_witness :
  colorear ejemplo_filas = Ok ejemplo_entidades
  /\ In {| fila := sin_datos (territorio "MEX");
           fillColor := Branca.hex 255 255 204 |} ejemplo_entidades
  /\ (forall f, In f ejemplo_filas ->
                casos (sin_datos (territorio "MEX")) <= casos f)
  /\ fillColor {| fila := sin_datos (territorio "MEX");
                  fillColor := Branca.hex 255 255 204 |}
     = Branca.hex 255 255 204.
Proof.
  assert (H1 : colorear ejemplo_filas = Ok ejemplo_entidades)
    by (vm_compute; reflexivity).
  assert (H2 : In {| fila := sin_datos (territorio "MEX");
                     fillColor := Branca.hex 255 255 204 |}
                  ejemplo_entidades)
    by (vm_compute; auto).
  assert (H3 : forall f, In f ejemplo_filas ->
                         casos (sin_datos (territorio "MEX")) <= casos f).
  { intros f Hf. vm_compute in Hf.
    destruct Hf as [<-|[<-|[<-|[]]]]; simpl; lia. }
  split; [exact H1|]. split; [exact H2|]. split; [exact H3|].
  exact (proj1 (colorear_extremos ejemplo_filas ejemplo_entidades _ H1 H2)
               H3).
Defined.


Lemma tabla_b_invariantes_witness :
  app_b ejemplo_datos ejemplo_paises = Ok ejemplo_salida_b
  /\ In (fila_tabla "USA" 2024 1 2 (Some 150)) (tabla ejemplo_salida_b)
  /\ String.prefix "OWID" (codigo_iso (fila_tabla "USA" 2024 1 2 (Some 150)))
     = false.
Proof.
  assert (H1 : app_b ejemplo_datos ejemplo_paises = Ok ejemplo_salida_b)
    by (vm_compute; reflexivity).
  assert (H2 : In (fila_tabla "USA" 2024 1 2 (Some 150))
                  (tabla ejemplo_salida_b))
    by (vm_compute; auto).
  split; [exact H1|]. split; [exact H2|].
  exact (proj1 (tabla_b_invariantes ejemplo_datos ejemplo_paises
                  ejemplo_salida_b _ H1 H2)).
Defined.

